(** * The analytics service of the prescription-validation project

    A shallow embedding of [analytics/app.py]: the Flask handler [analyze]
    behind [POST /analyze], the process-wide dictionary [HISTORY] it
    updates, and the rule that turns the number of recent events of a
    patient into a risk score.

    Conventions of the embedding.
    - A [datetime] is an integer number of microseconds (the resolution of
      Python's [datetime]); [now - t] is a [timedelta] normalised the way
      Python normalises it, and [.seconds] is its seconds field.
    - What [request.json] does is an input of the handler: it raises
      (which exception is the framework's affair: [BadRequest] for text
      its decoder rejects, [UnsupportedMediaType] for a body not declared
      as JSON, [RecursionError] for text nested deeper than the decoder
      can follow), or it hands over a Python value.  Numbers with a
      fraction or an exponent are not represented.
    - An exception raised by the handler leaves [HISTORY] as the statements
      executed so far made it; the framework answers with an error status
      and goes on serving. *)

From Stdlib Require Import ZArith QArith String List Lia DecimalString.
From stdpp Require Import base option list sorting strings gmap.

Local Open Scope Z_scope.
Local Open Scope string_scope.
Local Open Scope list_scope.

(** ** Python values *)

Module Py.

(** What [request.json] can hand over. *)
#[local] Unset Elimination Schemes.
Inductive value : Type :=
| None_
| Bool (b : bool)
| Int (z : Z)
| Str (s : string)
| List (l : list value)
| Dict (d : list (string * value)).
#[local] Set Elimination Schemes.

(** The numbers that end up in the response: the integer literal [0] and
    the float literals [0.3], [0.8]; a float literal is kept as the
    decimal fraction that is written in the source. *)
Inductive number : Type :=
| NInt (z : Z)
| NFloat (q : Q).

Definition number_value (n : number) : Q :=
  match n with
  | NInt z => inject_Z z
  | NFloat q => q
  end.

(** Python's [==] on numbers compares values, whatever the type. *)
Definition number_eqb (a b : number) : bool :=
  Qeq_bool (number_value a) (number_value b).

(** Keys of a dictionary: the hashable values, up to [==]
    ([True == 1] and [False == 0] are the same key). *)
Inductive key : Type :=
| KNone
| KInt (z : Z)
| KStr (s : string).

Inductive exn : Type :=
| BadRequest
| UnsupportedMediaType
| RecursionError
| AttributeError
| TypeError
| KeyError.

(** The status the framework answers with when the handler raises: its
    own HTTP exceptions carry theirs, anything else is a server error. *)
Definition http_status (e : exn) : Z :=
  match e with
  | BadRequest => 400
  | UnsupportedMediaType => 415
  | RecursionError | AttributeError | TypeError | KeyError => 500
  end.

Definition client_error (status : Z) : Prop := 400 <= status < 500.

(** [hash(v)], up to [==]: the key a hashable value is filed under. *)
Definition hash (v : value) : option key :=
  match v with
  | None_ => Some KNone
  | Bool b => Some (KInt (if b then 1 else 0))
  | Int z => Some (KInt z)
  | Str s => Some (KStr s)
  | List _ | Dict _ => None
  end.

(** [str(n)] of a length. *)
Definition str_of_nat (n : nat) : string :=
  NilZero.string_of_uint (Nat.to_uint n).

End Py.

#[global] Instance key_eq_dec : EqDecision Py.key.
Proof. solve_decision. Defined.

Definition key_to_sum (k : Py.key) : option (Z + string) :=
  match k with
  | Py.KNone => None
  | Py.KInt z => Some (inl z)
  | Py.KStr s => Some (inr s)
  end.

Definition key_of_sum (o : option (Z + string)) : Py.key :=
  match o with
  | None => Py.KNone
  | Some (inl z) => Py.KInt z
  | Some (inr s) => Py.KStr s
  end.

#[global] Instance key_countable : Countable Py.key.
Proof.
  apply (inj_countable' key_to_sum key_of_sum).
  intros k. destruct k; reflexivity.
Defined.

(** ** Dates and durations *)

Abbreviation datetime := Z (only parsing).

Record timedelta : Type := {
  days : Z;
  seconds : Z;
  microseconds : Z
}.

Definition us_per_second : Z := 1000000.
Definition us_per_day : Z := 86400 * us_per_second.

(** [a - b] on two datetimes. *)
Definition datetime_sub (a b : datetime) : timedelta :=
  let us := a - b in
  {| days := us / us_per_day;
     seconds := (us mod us_per_day) / us_per_second;
     microseconds := us mod us_per_second |}.

(** The datetime [s] whole seconds after the origin. *)
Definition at_second (s : Z) : datetime := s * us_per_second.

(** ** The handler's state and monad *)

Record History : Type := {
  patients : gmap Py.key (list Z);
  doctors : gmap Py.key (list Z)
}.

(** [HISTORY = {'patients': {}, 'doctors': {}}] *)
Definition HISTORY : History := {| patients := ∅; doctors := ∅ |}.

(** A statement of the handler: it reads and writes [HISTORY] and either
    raises or yields a value.  The state survives an exception. *)
Definition M (A : Type) : Type := History -> (Py.exn + A) * History.

Definition ret {A} (a : A) : M A := fun h => (inr a, h).

Definition raise {A} (e : Py.exn) : M A := fun h => (inl e, h).

Definition bind {A B} (m : M A) (f : A -> M B) : M B :=
  fun h =>
    match m h with
    | (inl e, h') => (inl e, h')
    | (inr a, h') => f a h'
    end.

#[global] Instance M_ret : MRet M := @ret.
#[global] Instance M_bind : MBind M := fun A B f m => bind m f.

(** ** The operations [analyze] uses *)

(** What [request.json] does for a request: it raises [e], or its value
    is [v]. *)
Inductive request_json : Type :=
| Raises (e : Py.exn)
| Json (v : Py.value).

(** [request.json] *)
Definition get_json (rq : request_json) : M Py.value :=
  match rq with
  | Raises e => raise e
  | Json v => ret v
  end.

Fixpoint dict_lookup (k : string) (d : list (string * Py.value)) : option Py.value :=
  match d with
  | [] => None
  | (k', v) :: d' => if String.eqb k k' then Some v else dict_lookup k d'
  end.

(** [data.get(k)]: only a dictionary has the method; a missing key gives
    [None]. *)
Definition py_get (data : Py.value) (k : string) : M Py.value :=
  match data with
  | Py.Dict d => ret (default Py.None_ (dict_lookup k d))
  | _ => raise Py.AttributeError
  end.

(** Using a value as a key; lists and dictionaries are unhashable. *)
Definition hash_key (v : Py.value) : M Py.key :=
  match Py.hash v with
  | Some k => ret k
  | None => raise Py.TypeError
  end.

(** [k in HISTORY['patients']] *)
Definition patients_contains (k : Py.key) : M bool :=
  fun h => (inr (bool_decide (is_Some (patients h !! k))), h).

(** [HISTORY['patients'][k]] *)
Definition patients_getitem (k : Py.key) : M (list Z) :=
  fun h =>
    match patients h !! k with
    | Some l => (inr l, h)
    | None => (inl Py.KeyError, h)
    end.

(** [HISTORY['patients'][k] = l] *)
Definition patients_setitem (k : Py.key) (l : list Z) : M unit :=
  fun h => (inr tt, {| patients := <[k := l]> (patients h); doctors := doctors h |}).

(** [HISTORY['patients'][k].append(t)]: the list is owned by the
    dictionary alone, so mutating it is storing the longer list. *)
Definition patients_append (k : Py.key) (t : datetime) : M unit :=
  l ← patients_getitem k;
  patients_setitem k (l ++ [t]).

(** [(now - t).seconds < 3600] *)
Definition recent (now t : datetime) : Prop :=
  seconds (datetime_sub now t) < 3600.

#[global] Instance recent_dec now t : Decision (recent now t).
Proof. unfold recent. apply _. Defined.

(** [[t for t in l if (now - t).seconds < 3600]] *)
Definition cleanup_old_events (now : datetime) (l : list Z) : list Z :=
  filter (recent now) l.

Record response : Type := {
  risk_score : Py.number;
  reason : string;
  count_last_hour : nat
}.

(** Lines 35 to 49: the rule on the count, and the response. *)
Definition rule_based_analysis (count : nat) : response :=
  let risk_score := Py.NInt 0 in
  let reason := "Normal usage pattern." in
  if (3 <? count)%nat then
    {| risk_score := Py.NFloat (8 # 10);
       reason := "High frequency: " +:+ Py.str_of_nat count
                   +:+ " prescriptions in last hour.";
       count_last_hour := count |}
  else if (1 <? count)%nat then
    {| risk_score := Py.NFloat (3 # 10);
       reason := "Moderate frequency.";
       count_last_hour := count |}
  else
    {| risk_score := risk_score;
       reason := reason;
       count_last_hour := count |}.

(** ** The handler *)

Definition analyze (rq : request_json) (clock : datetime) : M response :=
  data ← get_json rq;
  p_hash ← py_get data "patientHash";
  d_addr ← py_get data "doctorAddress";
  let now := clock in
  k ← hash_key p_hash;
  present ← patients_contains k;
  (if negb present then patients_setitem k [] else ret tt);;
  patients_append k now;;
  l ← patients_getitem k;
  patients_setitem k (cleanup_old_events now l);;
  l' ← patients_getitem k;
  let count := length l' in
  ret (rule_based_analysis count).

(** The process: requests are handled one after the other, each at the
    time its handler reads the clock. *)
Fixpoint serve (rqs : list (request_json * Z)) (h : History)
  : list (Py.exn + response) * History :=
  match rqs with
  | [] => ([], h)
  | (rq, now) :: rqs' =>
      let '(o, h') := analyze rq now h in
      let '(os, h'') := serve rqs' h' in
      (o :: os, h'')
  end.

(** A request of the documented shape. *)
Definition request_for (p_hash d_addr : string) : request_json :=
  Json (Py.Dict [("patientHash", Py.Str p_hash); ("doctorAddress", Py.Str d_addr)]).


(** ** Reading the model *)

(** The events on record for a key; a key never seen has none. *)
Definition bucket (h : History) (k : Py.key) : list Z :=
  default [] (patients h !! k).

(** The key under which [analyze] files a request, when it gets that far. *)
Definition patient_key (rq : request_json) : option Py.key :=
  match rq with
  | Json (Py.Dict d) => Py.hash (default Py.None_ (dict_lookup "patientHash" d))
  | _ => None
  end.

(** The times of the requests filed under [k], in the order of arrival. *)
Definition events_for (k : Py.key) (rqs : list (request_json * Z)) : list Z :=
  snd <$> filter (fun x => patient_key (fst x) = Some k) rqs.

(** The window of the cleanup, in microseconds. *)
Definition window : Z := 3600 * us_per_second.

(** ** Two calls in flight

    The handler takes no lock.  A call that has read its request and the
    clock (lines 17 to 21, which touch nothing shared) stands at one of
    the points below, and between two points another call may run.
    [statement] runs what stands at a point, with the operations [analyze]
    is made of; line 29 is two points, the comprehension that reads the
    list and the assignment that stores the result. *)

Inductive point : Type :=
| AtTest
| AtCreate
| AtAppend
| AtFilter
| AtStore (l : list Z)
| AtCount
| Returned (r : response)
| Raised (e : Py.exn).

Record call : Type := {
  call_key : Py.key;
  call_now : Z;
  call_at : point
}.

Definition statement (k : Py.key) (now : datetime) (p : point) : M point :=
  match p with
  | AtTest =>
      present ← patients_contains k;
      ret (if negb present then AtCreate else AtAppend)
  | AtCreate => patients_setitem k [];; ret AtAppend
  | AtAppend => patients_append k now;; ret AtFilter
  | AtFilter =>
      l ← patients_getitem k;
      ret (AtStore (cleanup_old_events now l))
  | AtStore l => patients_setitem k l;; ret AtCount
  | AtCount =>
      l' ← patients_getitem k;
      let count := length l' in
      ret (Returned (rule_based_analysis count))
  | Returned r => ret (Returned r)
  | Raised e => ret (Raised e)
  end.

(** One statement of a call; an exception ends the call. *)
Definition step (c : call) (h : History) : call * History :=
  match statement (call_key c) (call_now c) (call_at c) h with
  | (inr p, h') =>
      ({| call_key := call_key c; call_now := call_now c; call_at := p |}, h')
  | (inl e, h') =>
      ({| call_key := call_key c; call_now := call_now c; call_at := Raised e |}, h')
  end.

(** A call about to run line 24. *)
Definition enters (k : Py.key) (now : datetime) : call :=
  {| call_key := k; call_now := now; call_at := AtTest |}.

Inductive turn : Type :=
| CallA
| CallB.

(** Two calls, run in the order a schedule gives the turns. *)
Fixpoint interleave (sched : list turn) (a b : call) (h : History)
  : call * call * History :=
  match sched with
  | [] => (a, b, h)
  | CallA :: sched' => let '(a', h') := step a h in interleave sched' a' b h'
  | CallB :: sched' => let '(b', h') := step b h in interleave sched' a b' h'
  end.

(** What can be seen of two calls for the key [k]: what each returned and
    the list left for [k]. *)
Definition observed (k : Py.key) (x : call * call * History)
  : point * point * list Z :=
  (call_at x.1.1, call_at x.1.2, bucket x.2 k).

(** A schedule is linearizable when what can be seen after it is what
    can be seen after one of the two orders in which the calls run one
    after the other. *)
Definition linearizable (k : Py.key) (a b : call) (h : History)
    (sched : list turn) : Prop :=
  observed k (interleave sched a b h)
    = observed k (interleave (replicate 6%nat CallA ++ replicate 6%nat CallB) a b h)
  \/ observed k (interleave sched a b h)
    = observed k (interleave (replicate 6%nat CallB ++ replicate 6%nat CallA) a b h).

(** * Properties *)

Section Handler.

Implicit Types (h : History) (k : Py.key) (now t : Z) (rq : request_json).

(** Running a sequence of two statements. *)
Lemma bind_inr {A B} (m : M A) (f : A -> M B) h a h' :
  m h = (inr a, h') -> (m ≫= f) h = f a h'.
Proof. intros Hm. unfold mbind, M_bind, bind. rewrite Hm. reflexivity. Qed.

Lemma bind_inl {A B} (m : M A) (f : A -> M B) h e h' :
  m h = (inl e, h') -> (m ≫= f) h = (inl e, h').
Proof. intros Hm. unfold mbind, M_bind, bind. rewrite Hm. reflexivity. Qed.

Lemma patients_getitem_Some k l h :
  patients h !! k = Some l -> patients_getitem k h = (inr l, h).
Proof. intros Hl. unfold patients_getitem. rewrite Hl. reflexivity. Qed.

Lemma patients_append_Some k l t h :
  patients h !! k = Some l ->
  patients_append k t h =
    (inr tt, {| patients := <[k := l ++ [t]]> (patients h); doctors := doctors h |}).
Proof.
  intros Hl. unfold patients_append.
  rewrite (bind_inr _ _ h l h) by (apply patients_getitem_Some, Hl).
  reflexivity.
Qed.

(** Lines 24 and 25: afterwards the key is present, with the events it
    had. *)
Lemma ensure_bucket k h :
  exists h1,
    (present ← patients_contains k;
     if negb present then patients_setitem k [] else ret tt) h = (inr tt, h1)
    /\ patients h1 !! k = Some (bucket h k)
    /\ <[k := bucket h k]> (patients h) = patients h1
    /\ doctors h1 = doctors h.
Proof.
  unfold bucket, mbind, M_bind, bind, patients_contains.
  destruct (patients h !! k) as [l|] eqn:Hl; simpl.
  - exists h. split; [reflexivity|]. split; [exact Hl|].
    split; [apply insert_id, Hl|reflexivity].
  - eexists. split; [reflexivity|]. simpl.
    split; [apply lookup_insert_eq|]. split; reflexivity.
Qed.

(** What a request that reaches the update does: the new event is put
    last, the list is filtered, its length is scored. *)
Lemma analyze_ok rq now h k :
  patient_key rq = Some k ->
  let l' := cleanup_old_events now (bucket h k ++ [now]) in
  analyze rq now h =
    (inr (rule_based_analysis (length l')),
     {| patients := <[k := l']> (patients h); doctors := doctors h |}).
Proof.
  intros Hk l'. subst l'.
  destruct rq as [e|[| | | | |d]]; try discriminate Hk.
  simpl in Hk. unfold analyze.
  rewrite (bind_inr _ _ h (Py.Dict d) h) by reflexivity.
  erewrite bind_inr by reflexivity.
  erewrite bind_inr by reflexivity.
  rewrite (bind_inr _ _ h k h) by (unfold hash_key; rewrite Hk; reflexivity).
  destruct (ensure_bucket k h) as (h1 & Hrun & Hlook & Hins & Hdoc).
  change (patients_contains k ≫= _) with
    ((present ← patients_contains k;
      if negb present then patients_setitem k [] else ret tt) ≫=
     (fun _ => patients_append k now;;
               l ← patients_getitem k;
               patients_setitem k (cleanup_old_events now l);;
               l' ← patients_getitem k;
               mret (M := M) (rule_based_analysis (length l')))).
  rewrite (bind_inr _ _ h tt h1 Hrun).
  erewrite bind_inr by (apply patients_append_Some, Hlook).
  erewrite bind_inr by (apply patients_getitem_Some; simpl; apply lookup_insert_eq).
  erewrite bind_inr by reflexivity.
  erewrite bind_inr by (apply patients_getitem_Some; simpl; apply lookup_insert_eq).
  simpl. rewrite !insert_insert_eq, <- Hins, insert_insert_eq, Hdoc.
  reflexivity.
Qed.

(** A request that does not reach the update raises, and nothing was
    written. *)
Lemma analyze_raises rq now h :
  patient_key rq = None ->
  exists e, analyze rq now h = (inl e, h).
Proof.
  intros Hk.
  destruct rq as [e|[| | | | |d]]; simpl in Hk; try discriminate Hk;
    try (eexists; reflexivity).
  unfold analyze, mbind, M_bind, bind; simpl.
  unfold hash_key. rewrite Hk. eexists; reflexivity.
Qed.

(** A body that is a dictionary passes the two [get]s; only an
    unhashable [patientHash] stops it, at the membership test. *)
Lemma analyze_unhashable d now h :
  patient_key (Json (Py.Dict d)) = None ->
  analyze (Json (Py.Dict d)) now h = (inl Py.TypeError, h).
Proof.
  intros Hk. simpl in Hk. unfold analyze.
  rewrite (bind_inr _ _ h (Py.Dict d) h) by reflexivity.
  erewrite bind_inr by reflexivity.
  erewrite bind_inr by reflexivity.
  apply bind_inl. unfold hash_key. rewrite Hk. reflexivity.
Qed.

(** The handler never looks at the doctors' dictionary. *)
Lemma analyze_ignores_doctors rq now p d1 d2 :
  (analyze rq now {| patients := p; doctors := d1 |}).1
    = (analyze rq now {| patients := p; doctors := d2 |}).1
  /\ patients (analyze rq now {| patients := p; doctors := d1 |}).2
    = patients (analyze rq now {| patients := p; doctors := d2 |}).2.
Proof.
  destruct (patient_key rq) as [k|] eqn:Hk.
  - rewrite !(analyze_ok rq now _ k Hk). split; reflexivity.
  - destruct rq as [e|[| | | | |d]]; try (split; reflexivity).
    rewrite !analyze_unhashable by exact Hk. split; reflexivity.
Qed.

Lemma analyze_raises_unchanged rq now h e h' :
  analyze rq now h = (inl e, h') -> h' = h.
Proof.
  intros Hrun. destruct (patient_key rq) as [k|] eqn:Hk.
  - rewrite (analyze_ok rq now h k Hk) in Hrun. discriminate Hrun.
  - destruct (analyze_raises rq now h Hk) as [e' He'].
    rewrite He' in Hrun. congruence.
Qed.

Lemma analyze_doctors rq now h :
  doctors (analyze rq now h).2 = doctors h.
Proof.
  destruct (patient_key rq) as [k|] eqn:Hk.
  - rewrite (analyze_ok rq now h k Hk). reflexivity.
  - destruct (analyze_raises rq now h Hk) as [e He]. rewrite He. reflexivity.
Qed.

(** The new list of the key of the request, and every other key as it
    was. *)
Lemma analyze_bucket rq now h k :
  patient_key rq = Some k ->
  patients (analyze rq now h).2 !! k
    = Some (cleanup_old_events now (bucket h k ++ [now])).
Proof.
  intros Hk. rewrite (analyze_ok rq now h k Hk). simpl.
  apply lookup_insert_eq.
Qed.

Lemma analyze_other_keys rq now h k' :
  patient_key rq <> Some k' ->
  patients (analyze rq now h).2 !! k' = patients h !! k'.
Proof.
  intros Hne. destruct (patient_key rq) as [k|] eqn:Hk.
  - rewrite (analyze_ok rq now h k Hk). simpl.
    apply lookup_insert_ne. congruence.
  - destruct (analyze_raises rq now h Hk) as [e He]. rewrite He. reflexivity.
Qed.

(** The answer to a request depends on the list of its own key only. *)
Lemma analyze_local rq now h1 h2 k :
  patient_key rq = Some k ->
  patients h1 !! k = patients h2 !! k ->
  (analyze rq now h1).1 = (analyze rq now h2).1
  /\ patients (analyze rq now h1).2 !! k = patients (analyze rq now h2).2 !! k.
Proof.
  intros Hk Heq.
  rewrite (analyze_ok rq now h1 k Hk), (analyze_ok rq now h2 k Hk). simpl.
  unfold bucket. rewrite Heq, !lookup_insert_eq. split; reflexivity.
Qed.

End Handler.

Section Cleanup.

Implicit Types (now t : Z) (l : list Z).

Lemma seconds_datetime_sub now t :
  seconds (datetime_sub now t) = ((now - t) mod us_per_day) / us_per_second.
Proof. reflexivity. Qed.

(** The test of the cleanup looks at the age modulo one day. *)
Lemma recent_mod_day now t :
  recent now t <-> (now - t) mod us_per_day < window.
Proof.
  unfold recent. rewrite seconds_datetime_sub.
  generalize ((now - t) mod us_per_day). intros x.
  unfold window, us_per_second.
  pose proof (Z.div_mod x 1000000 ltac:(lia)) as Hx.
  pose proof (Z.mod_pos_bound x 1000000 ltac:(lia)) as Hr.
  revert Hx Hr. generalize (x / 1000000) (x mod 1000000). lia.
Qed.

(** For an age of less than a day it is the test on the age. *)
Lemma recent_within_day now t :
  0 <= now - t < us_per_day -> (recent now t <-> now - t < window).
Proof.
  intros Hage. rewrite recent_mod_day, Z.mod_small by exact Hage.
  reflexivity.
Qed.

Lemma recent_self now : recent now now.
Proof.
  apply recent_mod_day. rewrite Z.sub_diag.
  unfold window, us_per_day, us_per_second. reflexivity.
Qed.

(** Whole days do not count. *)
Lemma recent_add_days now t n :
  recent (now + n * us_per_day) t <-> recent now t.
Proof.
  rewrite !recent_mod_day.
  replace (now + n * us_per_day - t) with (now - t + n * us_per_day) by lia.
  rewrite Z.mod_add by (unfold us_per_day, us_per_second; lia).
  reflexivity.
Qed.

(** An event from the future of the clock is dropped. *)
Lemma not_recent_future now t :
  - (us_per_day - window) <= now - t < 0 -> ~ recent now t.
Proof.
  intros Hage. rewrite recent_mod_day.
  replace (now - t) with (now - t + us_per_day + (-1) * us_per_day) by lia.
  rewrite Z.mod_add by (unfold us_per_day, us_per_second; lia).
  rewrite Z.mod_small; unfold window, us_per_day, us_per_second in *; lia.
Qed.

Lemma cleanup_keeps_all now l :
  Forall (fun t => 0 <= now - t < window) l -> cleanup_old_events now l = l.
Proof.
  unfold cleanup_old_events. induction 1 as [|t l Ht _ IH]; [reflexivity|].
  rewrite filter_cons_True, IH; [reflexivity|].
  apply recent_within_day; unfold window, us_per_day, us_per_second in *; lia.
Qed.

(** The cleanup keeps every copy of a recent time and no copy of
    another. *)
Lemma count_occ_cleanup now l t :
  count_occ Z.eq_dec (cleanup_old_events now l) t
    = if decide (recent now t) then count_occ Z.eq_dec l t else 0%nat.
Proof.
  unfold cleanup_old_events. induction l as [|u l IH].
  - simpl. destruct (decide (recent now t)); reflexivity.
  - rewrite filter_cons. destruct (decide (recent now u)) as [Hu|Hu]; simpl.
    + rewrite IH. destruct (Z.eq_dec u t) as [->|Hne];
        destruct (decide (recent now t)); try reflexivity; contradiction.
    + rewrite IH. destruct (Z.eq_dec u t) as [->|Hne]; [|reflexivity].
      destruct (decide (recent now t)); [contradiction|reflexivity].
Qed.

Lemma cleanup_sublist now l : cleanup_old_events now l `sublist_of` l.
Proof. apply sublist_filter. Qed.

Lemma cleanup_last now l :
  cleanup_old_events now (l ++ [now]) = cleanup_old_events now l ++ [now].
Proof.
  unfold cleanup_old_events. rewrite filter_app.
  rewrite (filter_cons_True _ now []) by apply recent_self. reflexivity.
Qed.

End Cleanup.

Section Rule.

Lemma count_last_hour_rule (count : nat) :
  count_last_hour (rule_based_analysis count) = count.
Proof.
  unfold rule_based_analysis.
  destruct (3 <? count)%nat; [reflexivity|].
  destruct (1 <? count)%nat; reflexivity.
Qed.

Lemma counts_of_rule (m n : nat) :
  count_last_hour <$> (rule_based_analysis <$> seq m n) = seq m n.
Proof.
  revert m. induction n as [|n IH]; intros m; [reflexivity|].
  simpl. rewrite IH, count_last_hour_rule. reflexivity.
Qed.

End Rule.

Section Serving.

Implicit Types (h : History) (k : Py.key) (rq : request_json)
  (rqs : list (request_json * Z)).

Lemma serve_cons rq now rqs h :
  serve ((rq, now) :: rqs) h =
    ((analyze rq now h).1 :: (serve rqs (analyze rq now h).2).1,
     (serve rqs (analyze rq now h).2).2).
Proof.
  simpl. destruct (analyze rq now h) as [o h1]. simpl.
  destruct (serve rqs h1) as [os h2]. reflexivity.
Qed.

Lemma serve_app rqs1 rqs2 h :
  serve (rqs1 ++ rqs2) h =
    ((serve rqs1 h).1 ++ (serve rqs2 (serve rqs1 h).2).1,
     (serve rqs2 (serve rqs1 h).2).2).
Proof.
  revert h. induction rqs1 as [|[rq now] rqs1 IH]; intros h.
  - simpl. destruct (serve rqs2 h); reflexivity.
  - rewrite <- app_comm_cons, !serve_cons, IH. reflexivity.
Qed.

Lemma serve_doctors rqs h : doctors (serve rqs h).2 = doctors h.
Proof.
  revert h. induction rqs as [|[rq now] rqs IH]; intros h; [reflexivity|].
  rewrite serve_cons. simpl. rewrite IH. apply analyze_doctors.
Qed.

(** Requests filed under other keys leave the list of [k] alone. *)
Lemma serve_other_keys rqs h k :
  Forall (fun x => patient_key x.1 <> Some k) rqs ->
  patients (serve rqs h).2 !! k = patients h !! k.
Proof.
  intros Hall. revert h.
  induction Hall as [|[rq now] rqs Hne _ IH]; intros h; [reflexivity|].
  rewrite serve_cons. simpl. rewrite IH. apply analyze_other_keys, Hne.
Qed.

(** The stored list is drawn, in order, from what was there and what
    came in. *)
Lemma serve_bucket_sublist rqs h k :
  bucket (serve rqs h).2 k `sublist_of` bucket h k ++ events_for k rqs.
Proof.
  revert h. induction rqs as [|[rq now] rqs IH]; intros h.
  - simpl. unfold events_for. simpl. rewrite app_nil_r. reflexivity.
  - rewrite serve_cons. simpl. etransitivity; [apply IH|].
    unfold events_for. rewrite filter_cons.
    destruct (decide (patient_key (rq, now).1 = Some k)) as [Hk|Hk]; simpl in Hk.
    + rewrite fmap_cons. simpl.
      rewrite (app_assoc _ [now] _ : bucket h k ++ now :: _ = _).
      apply sublist_app; [|reflexivity].
      unfold bucket at 1. rewrite (analyze_bucket rq now h k Hk). simpl.
      apply cleanup_sublist.
    + unfold bucket at 1. rewrite (analyze_other_keys rq now h k Hk).
      reflexivity.
Qed.

(** A burst for one key: calls in the order of the clock, all within
    the window of the oldest event on record.  Nothing is dropped, each
    call counts one more. *)
Lemma serve_burst k rqs : forall h,
  Forall (fun x => patient_key x.1 = Some k) rqs ->
  StronglySorted Z.le (bucket h k ++ rqs.*2) ->
  (forall t t', t ∈ bucket h k ++ rqs.*2 -> t' ∈ bucket h k ++ rqs.*2 ->
                t' - t < window) ->
  (serve rqs h).1
    = (fun n => inr (rule_based_analysis n))
        <$> seq (S (length (bucket h k))) (length rqs)
  /\ bucket (serve rqs h).2 k = bucket h k ++ rqs.*2
  /\ (rqs <> [] -> patients (serve rqs h).2 !! k = Some (bucket h k ++ rqs.*2))
  /\ (forall k', k' <> k -> patients (serve rqs h).2 !! k' = patients h !! k').
Proof.
  induction rqs as [|[rq now] rqs IH]; intros h Hkeys Hsorted Hwin.
  - simpl. rewrite app_nil_r. repeat split; congruence.
  - apply Forall_cons in Hkeys as [Hk Hkeys]. simpl in Hk.
    rewrite fmap_cons in Hsorted, Hwin. simpl in Hsorted, Hwin.
    assert (Hkeep : cleanup_old_events now (bucket h k ++ [now])
                    = bucket h k ++ [now]).
    { apply cleanup_keeps_all, Forall_forall. intros t Ht. split.
      - apply elem_of_app in Ht as [Ht|Ht%list_elem_of_singleton]; [|lia].
        assert (t <= now); [|lia].
        eapply (StronglySorted_app_1_elem_of _ _ _ _ _ Hsorted);
          [exact Ht|left].
      - apply Hwin; rewrite elem_of_app, elem_of_cons; [|by auto].
        apply elem_of_app in Ht as [Ht|Ht%list_elem_of_singleton]; auto. }
    assert (Hout : (analyze rq now h).1
                   = inr (rule_based_analysis (S (length (bucket h k))))).
    { rewrite (analyze_ok rq now h k Hk). simpl.
      rewrite Hkeep, length_app. simpl. rewrite Nat.add_1_r. reflexivity. }
    assert (Hlook : patients (analyze rq now h).2 !! k
                    = Some (bucket h k ++ [now])).
    { rewrite (analyze_bucket rq now h k Hk), Hkeep. reflexivity. }
    assert (Hrest : forall k', k' <> k ->
              patients (analyze rq now h).2 !! k' = patients h !! k').
    { intros k' Hne. apply analyze_other_keys. congruence. }
    assert (Hb : bucket (analyze rq now h).2 k = bucket h k ++ [now]).
    { unfold bucket at 1. rewrite Hlook. reflexivity. }
    rewrite serve_cons. simpl.
    destruct (analyze rq now h) as [o h1]. simpl in *. subst o.
    destruct (IH h1 Hkeys) as (Houts & Hfin & Hsome & Hoth).
    { rewrite Hb, <- app_assoc. exact Hsorted. }
    { rewrite Hb, <- app_assoc. exact Hwin. }
    rewrite Hb, <- app_assoc in Hfin, Hsome. simpl in Hfin, Hsome.
    rewrite Hb, length_app in Houts. simpl in Houts.
    rewrite Nat.add_1_r in Houts.
    split; [rewrite Houts; reflexivity|].
    split; [exact Hfin|]. split.
    + intros _. destruct rqs as [|x rqs']; [exact Hlook|].
      apply Hsome. discriminate.
    + intros k' Hne. rewrite (Hoth k' Hne). apply Hrest, Hne.
Qed.

End Serving.

Section Flight.

Implicit Types (h : History) (k : Py.key) (now : Z) (a b c : call)
  (sched : list turn).

Local Notation "k @ now 'is' p" :=
  {| call_key := k; call_now := now; call_at := p |}
  (at level 10, now at level 9, p at level 9, only parsing).

Lemma step_test_present k now h l :
  patients h !! k = Some l ->
  step (k @ now is AtTest) h = (k @ now is AtAppend, h).
Proof.
  intros Hl. unfold step, statement, mbind, M_bind, bind, patients_contains.
  simpl. rewrite Hl. reflexivity.
Qed.

Lemma step_test_absent k now h :
  patients h !! k = None ->
  step (k @ now is AtTest) h = (k @ now is AtCreate, h).
Proof.
  intros Hl. unfold step, statement, mbind, M_bind, bind, patients_contains.
  simpl. rewrite Hl. reflexivity.
Qed.

Lemma step_create k now h :
  step (k @ now is AtCreate) h
  = (k @ now is AtAppend,
     {| patients := <[k := []]> (patients h); doctors := doctors h |}).
Proof. reflexivity. Qed.

Lemma step_append k now h l :
  patients h !! k = Some l ->
  step (k @ now is AtAppend) h
  = (k @ now is AtFilter,
     {| patients := <[k := l ++ [now]]> (patients h); doctors := doctors h |}).
Proof.
  intros Hl. unfold step, statement. simpl.
  rewrite (bind_inr _ _ h tt _ (patients_append_Some k l now h Hl)).
  reflexivity.
Qed.

Lemma step_filter k now h l :
  patients h !! k = Some l ->
  step (k @ now is AtFilter) h
  = (k @ now is (AtStore (cleanup_old_events now l)), h).
Proof.
  intros Hl. unfold step, statement. simpl.
  rewrite (bind_inr _ _ h l h (patients_getitem_Some k l h Hl)).
  reflexivity.
Qed.

Lemma step_store k now h l :
  step (k @ now is (AtStore l)) h
  = (k @ now is AtCount,
     {| patients := <[k := l]> (patients h); doctors := doctors h |}).
Proof. reflexivity. Qed.

Lemma step_count k now h l :
  patients h !! k = Some l ->
  step (k @ now is AtCount) h
  = (k @ now is (Returned (rule_based_analysis (length l))), h).
Proof.
  intros Hl. unfold step, statement. simpl.
  rewrite (bind_inr _ _ h l h (patients_getitem_Some k l h Hl)).
  reflexivity.
Qed.

Lemma step_returned c h r : call_at c = Returned r -> step c h = (c, h).
Proof. destruct c as [k now p]. simpl. intros ->. reflexivity. Qed.

Lemma interleave_A sched a b h :
  interleave (CallA :: sched) a b h = interleave sched (step a h).1 b (step a h).2.
Proof. simpl. destruct (step a h). reflexivity. Qed.

Lemma interleave_B sched a b h :
  interleave (CallB :: sched) a b h = interleave sched a (step b h).1 (step b h).2.
Proof. simpl. destruct (step b h). reflexivity. Qed.

Lemma interleave_app sched1 sched2 a b h :
  interleave (sched1 ++ sched2) a b h
  = interleave sched2 (interleave sched1 a b h).1.1
      (interleave sched1 a b h).1.2 (interleave sched1 a b h).2.
Proof.
  revert a b h. induction sched1 as [|[|] sched1 IH]; intros a b h.
  - reflexivity.
  - rewrite <- app_comm_cons, !interleave_A. apply IH.
  - rewrite <- app_comm_cons, !interleave_B. apply IH.
Qed.

Lemma interleave_A_returned n a b h r :
  call_at a = Returned r -> interleave (replicate n CallA) a b h = (a, b, h).
Proof.
  intros Ha. induction n as [|n IH]; [reflexivity|].
  simpl replicate. rewrite interleave_A, (step_returned a h r Ha). exact IH.
Qed.

Lemma interleave_B_returned n a b h r :
  call_at b = Returned r -> interleave (replicate n CallB) a b h = (a, b, h).
Proof.
  intros Hb. induction n as [|n IH]; [reflexivity|].
  simpl replicate. rewrite interleave_B, (step_returned b h r Hb). exact IH.
Qed.

(** From line 26 to the end without a break. *)
Lemma run_A_from_append sched k now b h l :
  patients h !! k = Some l ->
  let l' := cleanup_old_events now (l ++ [now]) in
  interleave (CallA :: CallA :: CallA :: CallA :: sched) (k @ now is AtAppend) b h
  = interleave sched (k @ now is (Returned (rule_based_analysis (length l')))) b
      {| patients := <[k := l']> (patients h); doctors := doctors h |}.
Proof.
  intros Hl l'.
  rewrite interleave_A, (step_append k now h l Hl). simpl fst; simpl snd.
  rewrite interleave_A, (step_filter k now _ (l ++ [now]))
    by (simpl; apply lookup_insert_eq).
  simpl fst; simpl snd.
  rewrite interleave_A, step_store. simpl fst; simpl snd.
  rewrite interleave_A, (step_count k now _ l')
    by (simpl; apply lookup_insert_eq).
  simpl. rewrite !insert_insert_eq. reflexivity.
Qed.

Lemma run_B_from_append sched k now a h l :
  patients h !! k = Some l ->
  let l' := cleanup_old_events now (l ++ [now]) in
  interleave (CallB :: CallB :: CallB :: CallB :: sched) a (k @ now is AtAppend) h
  = interleave sched a (k @ now is (Returned (rule_based_analysis (length l'))))
      {| patients := <[k := l']> (patients h); doctors := doctors h |}.
Proof.
  intros Hl l'.
  rewrite interleave_B, (step_append k now h l Hl). simpl fst; simpl snd.
  rewrite interleave_B, (step_filter k now _ (l ++ [now]))
    by (simpl; apply lookup_insert_eq).
  simpl fst; simpl snd.
  rewrite interleave_B, step_store. simpl fst; simpl snd.
  rewrite interleave_B, (step_count k now _ l')
    by (simpl; apply lookup_insert_eq).
  simpl. rewrite !insert_insert_eq. reflexivity.
Qed.

(** A call that has all its turns in a row does what [analyze] does from
    line 24 on. *)
Lemma run_A_alone n k now b h :
  (6 <= n)%nat ->
  let l' := cleanup_old_events now (bucket h k ++ [now]) in
  interleave (replicate n CallA) (enters k now) b h
  = (k @ now is (Returned (rule_based_analysis (length l'))), b,
     {| patients := <[k := l']> (patients h); doctors := doctors h |}).
Proof.
  intros Hn l'. subst l'.
  do 6 (destruct n as [|n]; [lia|]). clear Hn. simpl replicate.
  unfold enters.
  destruct (patients h !! k) as [l|] eqn:Hl.
  - assert (Hb : bucket h k = l) by (unfold bucket; rewrite Hl; reflexivity).
    rewrite Hb.
    rewrite interleave_A, (step_test_present k now h l Hl). simpl fst; simpl snd.
    rewrite (run_A_from_append _ k now b h l Hl).
    apply (interleave_A_returned (S n)) with (r := rule_based_analysis
      (length (cleanup_old_events now (l ++ [now])))). reflexivity.
  - assert (Hb : bucket h k = []) by (unfold bucket; rewrite Hl; reflexivity).
    rewrite Hb.
    rewrite interleave_A, (step_test_absent k now h Hl). simpl fst; simpl snd.
    rewrite interleave_A, step_create. simpl fst; simpl snd.
    rewrite (run_A_from_append _ k now b _ []) by (simpl; apply lookup_insert_eq).
    simpl. rewrite insert_insert_eq.
    eapply interleave_A_returned. reflexivity.
Qed.

Lemma run_B_alone n k now a h :
  (6 <= n)%nat ->
  let l' := cleanup_old_events now (bucket h k ++ [now]) in
  interleave (replicate n CallB) a (enters k now) h
  = (a, k @ now is (Returned (rule_based_analysis (length l'))),
     {| patients := <[k := l']> (patients h); doctors := doctors h |}).
Proof.
  intros Hn l'. subst l'.
  do 6 (destruct n as [|n]; [lia|]). clear Hn. simpl replicate.
  unfold enters.
  destruct (patients h !! k) as [l|] eqn:Hl.
  - assert (Hb : bucket h k = l) by (unfold bucket; rewrite Hl; reflexivity).
    rewrite Hb.
    rewrite interleave_B, (step_test_present k now h l Hl). simpl fst; simpl snd.
    rewrite (run_B_from_append _ k now a h l Hl).
    apply (interleave_B_returned (S n)) with (r := rule_based_analysis
      (length (cleanup_old_events now (l ++ [now])))). reflexivity.
  - assert (Hb : bucket h k = []) by (unfold bucket; rewrite Hl; reflexivity).
    rewrite Hb.
    rewrite interleave_B, (step_test_absent k now h Hl). simpl fst; simpl snd.
    rewrite interleave_B, step_create. simpl fst; simpl snd.
    rewrite (run_B_from_append _ k now a _ []) by (simpl; apply lookup_insert_eq).
    simpl. rewrite insert_insert_eq.
    eapply interleave_B_returned. reflexivity.
Qed.

End Flight.

(** * The claims *)

(** C1.  The cleanup is meant to drop every event that is an hour old or
    older.  It compares the seconds field of the age, which starts again
    from zero every 24 hours: an event recorded at time T and next looked
    at 86400 seconds later, well past T + 3600 s, is kept and counted.
    Here a patient is seen twice, one day apart; the second answer counts
    two events and reports a moderate frequency. *)
Theorem day_old_event_still_counted :
  let T := at_second 0 in
  let T' := at_second 86400 in
  let out := serve [(request_for "p" "d", T); (request_for "p" "d", T')] HISTORY in
  ~ (T' - T < window)
  /\ recent T' T
  /\ out.1 = [inr {| risk_score := Py.NInt 0;
                     reason := "Normal usage pattern.";
                     count_last_hour := 1 |};
              inr {| risk_score := Py.NFloat (3 # 10);
                     reason := "Moderate frequency.";
                     count_last_hour := 2 |}]
  /\ patients out.2 !! Py.KStr "p" = Some [T; T'].
Proof.
  simpl. split; [|split; [|split]].
  - unfold window, at_second, us_per_second. lia.
  - apply recent_mod_day. vm_compute. reflexivity.
  - vm_compute. reflexivity.
  - vm_compute. reflexivity.
Qed.

(** C2.  The rule is defined on every count and its three branches split
    the counts exactly: at most 1 gives score 0 (the integer literal of
    the source, equal to 0.0 as a number) and "Normal usage pattern.";
    2 or 3 gives 0.3 and "Moderate frequency."; more than 3 gives 0.8 and
    "High frequency: {count} prescriptions in last hour.".  Exactly one of
    the three conditions holds of a count, and the count that [analyze]
    scores is the length of the list after the cleanup. *)
Theorem rule_based_analysis_partition (count : nat) :
  let r := rule_based_analysis count in
  ((count <= 1)%nat ->
     Py.number_eqb (risk_score r) (Py.NFloat 0) = true
     /\ reason r = "Normal usage pattern.")
  /\ ((count = 2 \/ count = 3)%nat ->
     risk_score r = Py.NFloat (3 # 10)
     /\ reason r = "Moderate frequency.")
  /\ ((count > 3)%nat ->
     risk_score r = Py.NFloat (8 # 10)
     /\ reason r = "High frequency: " +:+ Py.str_of_nat count
                     +:+ " prescriptions in last hour.")
  /\ count_last_hour r = count
  /\ (((count <= 1)%nat /\ ~ (count = 2 \/ count = 3)%nat /\ ~ (count > 3)%nat)
      \/ (~ (count <= 1)%nat /\ (count = 2 \/ count = 3)%nat /\ ~ (count > 3)%nat)
      \/ (~ (count <= 1)%nat /\ ~ (count = 2 \/ count = 3)%nat /\ (count > 3)%nat))
  /\ (forall rq now h r' h',
        analyze rq now h = (inr r', h') ->
        exists k, patient_key rq = Some k
                  /\ patients h' !! k = Some (cleanup_old_events now (bucket h k ++ [now]))
                  /\ r' = rule_based_analysis (length (bucket h' k))).
Proof.
  intros r. subst r. unfold rule_based_analysis.
  destruct (Nat.ltb_spec 3 count) as [H3|H3];
    [|destruct (Nat.ltb_spec 1 count) as [H1|H1]]; simpl.
  all: repeat match goal with |- _ /\ _ => split end;
    try (intros; first [lia | split; reflexivity]); try reflexivity; try lia.
  all: intros rq now h r' h' Hrun;
    destruct (patient_key rq) as [k|] eqn:Hk;
    [ rewrite (analyze_ok rq now h k Hk) in Hrun; injection Hrun as <- <-;
      exists k; unfold bucket; simpl; rewrite lookup_insert_eq; auto
    | destruct (analyze_raises rq now h Hk) as [e He]; congruence ].
Qed.

Lemma rule_based_analysis_partition_witness :
  (Py.number_eqb (risk_score (rule_based_analysis 0)) (Py.NFloat 0) = true
   /\ reason (rule_based_analysis 0) = "Normal usage pattern.")
  /\ (risk_score (rule_based_analysis 3) = Py.NFloat (3 # 10)
      /\ reason (rule_based_analysis 3) = "Moderate frequency.")
  /\ (risk_score (rule_based_analysis 12) = Py.NFloat (8 # 10)
      /\ reason (rule_based_analysis 12) = "High frequency: 12 prescriptions in last hour.").
Proof.
  split; [|split].
  - apply (rule_based_analysis_partition 0). lia.
  - apply (rule_based_analysis_partition 3). lia.
  - apply (rule_based_analysis_partition 12). lia.
Defined.

(** C3.  Starting from the fresh store, calls for one identifier made in
    the order of the clock and all less than one window apart are answered
    with the counts 1, 2, ..., N: the i-th answer is the rule applied to
    i, and N events are on record at the end.  Four calls at seconds 0,
    1, 2, 3 are the instance spelled out after the theorem. *)
Theorem successive_calls_count_up (k : Py.key) (rqs : list (request_json * Z)) :
  Forall (fun x => patient_key x.1 = Some k) rqs ->
  Sorted Z.le (rqs.*2) ->
  (forall t t', t ∈ rqs.*2 -> t' ∈ rqs.*2 -> t' - t < window) ->
  let out := serve rqs HISTORY in
  out.1 = (fun n => inr (rule_based_analysis n)) <$> seq 1 (length rqs)
  /\ count_last_hour <$> (rule_based_analysis <$> seq 1 (length rqs))
     = seq 1 (length rqs)
  /\ bucket out.2 k = rqs.*2
  /\ length (bucket out.2 k) = length rqs.
Proof.
  intros Hkeys Hsorted Hwin out. subst out.
  destruct (serve_burst k rqs HISTORY Hkeys) as (Houts & Hfin & _ & _).
  { simpl. apply Sorted_StronglySorted; [apply _|exact Hsorted]. }
  { exact Hwin. }
  simpl in Houts, Hfin. rewrite Houts, Hfin.
  split; [reflexivity|].
  split; [apply counts_of_rule|]. split; [reflexivity|apply length_fmap].
Qed.

Lemma successive_calls_count_up_witness :
  (serve [(request_for "p1" "d", at_second 0); (request_for "p1" "d", at_second 1);
          (request_for "p1" "d", at_second 2); (request_for "p1" "d", at_second 3)]
         HISTORY).1
  = [inr {| risk_score := Py.NInt 0; reason := "Normal usage pattern.";
            count_last_hour := 1 |};
     inr {| risk_score := Py.NFloat (3 # 10); reason := "Moderate frequency.";
            count_last_hour := 2 |};
     inr {| risk_score := Py.NFloat (3 # 10); reason := "Moderate frequency.";
            count_last_hour := 3 |};
     inr {| risk_score := Py.NFloat (8 # 10);
            reason := "High frequency: 4 prescriptions in last hour.";
            count_last_hour := 4 |}].
Proof.
  refine (proj1 (successive_calls_count_up (Py.KStr "p1") _ _ _ _)).
  - repeat constructor.
  - simpl. repeat constructor; vm_compute; discriminate.
  - simpl. intros t t' Ht Ht'.
    assert (Hall : Forall (fun x => 0 <= x <= 3 * us_per_second)
                     [at_second 0; at_second 1; at_second 2; at_second 3]).
    { repeat constructor; vm_compute; discriminate. }
    rewrite Forall_forall in Hall.
    pose proof (Hall t Ht). pose proof (Hall t' Ht').
    unfold window, us_per_second in *. lia.
Defined.

(** C4.  A call filed under key A leaves the list of every other key B as
    it was, and a later call for B is answered the same, and leaves the
    same list for B, whether or not the call for A was made.  Distinct
    strings are distinct keys. *)
Theorem other_identifier_untouched
    (rqA rqB : request_json) (nowA nowB : Z) (h : History) (A B : Py.key) :
  patient_key rqA = Some A ->
  patient_key rqB = Some B ->
  A <> B ->
  let hA := (analyze rqA nowA h).2 in
  patients hA !! B = patients h !! B
  /\ (analyze rqB nowB hA).1 = (analyze rqB nowB h).1
  /\ patients (analyze rqB nowB hA).2 !! B = patients (analyze rqB nowB h).2 !! B.
Proof.
  intros HA HB Hne hA.
  assert (Hsame : patients hA !! B = patients h !! B).
  { apply analyze_other_keys. congruence. }
  split; [exact Hsame|].
  apply (analyze_local rqB nowB hA h B HB Hsame).
Qed.

Lemma other_identifier_untouched_witness :
  let h := (analyze (request_for "B" "d") (at_second 0) HISTORY).2 in
  let hA := (analyze (request_for "A" "d") (at_second 5) h).2 in
  patients hA !! Py.KStr "B" = patients h !! Py.KStr "B"
  /\ (analyze (request_for "B" "d") (at_second 9) hA).1
     = (analyze (request_for "B" "d") (at_second 9) h).1
  /\ patients (analyze (request_for "B" "d") (at_second 9) hA).2 !! Py.KStr "B"
     = patients (analyze (request_for "B" "d") (at_second 9) h).2 !! Py.KStr "B".
Proof.
  intros h hA.
  apply (other_identifier_untouched (request_for "A" "d") (request_for "B" "d")
           (at_second 5) (at_second 9) h (Py.KStr "A") (Py.KStr "B")).
  - reflexivity.
  - reflexivity.
  - discriminate.
Defined.

(** C5.  A body that is a dictionary without [patientHash] is answered,
    not rejected: [data.get] gives [None], and [None] is the key.  All
    such requests are filed under that one key, whatever else they carry:
    in a burst of them the answers count 1, 2, ..., the events pile up in
    the list of [None], and no other key comes into being. *)
Theorem missing_patientHash_shares_bucket
    (bodies : list (list (string * Py.value) * Z)) :
  Forall (fun x => dict_lookup "patientHash" x.1 = None) bodies ->
  Sorted Z.le (bodies.*2) ->
  (forall t t', t ∈ bodies.*2 -> t' ∈ bodies.*2 -> t' - t < window) ->
  let out := serve ((fun x => (Json (Py.Dict x.1), x.2)) <$> bodies) HISTORY in
  Forall (fun x => patient_key (Json (Py.Dict x.1)) = Some Py.KNone) bodies
  /\ out.1 = (fun n => inr (rule_based_analysis n)) <$> seq 1 (length bodies)
  /\ bucket out.2 Py.KNone = bodies.*2
  /\ (forall k, k <> Py.KNone -> patients out.2 !! k = None).
Proof.
  intros Hmiss Hsorted Hwin out. subst out.
  assert (Hkeys : Forall (fun x => patient_key (Json (Py.Dict x.1)) = Some Py.KNone)
                    bodies).
  { eapply Forall_impl; [exact Hmiss|]. intros [d t] Hd. simpl in *.
    rewrite Hd. reflexivity. }
  assert (Htimes : ((fun x : list (string * Py.value) * Z =>
                       (Json (Py.Dict x.1), x.2)) <$> bodies).*2 = bodies.*2).
  { rewrite <- list_fmap_compose. apply list_fmap_ext. intros _ [d t] _. reflexivity. }
  split; [exact Hkeys|].
  destruct (serve_burst Py.KNone
              ((fun x => (Json (Py.Dict x.1), x.2)) <$> bodies) HISTORY)
    as (Houts & Hfin & _ & Hoth).
  - apply Forall_fmap. exact Hkeys.
  - simpl. rewrite Htimes. apply Sorted_StronglySorted; [apply _|exact Hsorted].
  - simpl. rewrite Htimes. exact Hwin.
  - simpl in Houts, Hfin. rewrite Houts, Hfin, Htimes, length_fmap.
    split; [reflexivity|]. split; [reflexivity|].
    intros k Hne. rewrite (Hoth k Hne). reflexivity.
Qed.

Lemma missing_patientHash_shares_bucket_witness :
  let out := serve [(Json (Py.Dict [("doctorAddress", Py.Str "0xD1")]), at_second 0);
                    (Json (Py.Dict []), at_second 5)] HISTORY in
  out.1 = [inr (rule_based_analysis 1); inr (rule_based_analysis 2)]
  /\ bucket out.2 Py.KNone = [at_second 0; at_second 5].
Proof.
  pose proof (missing_patientHash_shares_bucket
                [([("doctorAddress", Py.Str "0xD1")], at_second 0);
                 ([], at_second 5)]) as H.
  simpl in H. intros out.
  refine ((fun H' => conj (proj1 (proj2 H')) (proj1 (proj2 (proj2 H')))) (H _ _ _)).
  - repeat constructor.
  - repeat constructor; vm_compute; discriminate.
  - intros t t' Ht Ht'.
    assert (Hall : Forall (fun x => 0 <= x <= 5 * us_per_second)
                     [at_second 0; at_second 5]).
    { repeat constructor; vm_compute; discriminate. }
    rewrite Forall_forall in Hall.
    pose proof (Hall t Ht). pose proof (Hall t' Ht').
    unfold window, us_per_second in *. lia.
Defined.

(** C6, as the code has it.  The handler validates nothing itself: when
    [request.json] raises, the handler ends with that very exception,
    whatever it is, and [HISTORY] is what it was.  More generally,
    whenever the handler raises, for whatever request, [HISTORY] is what
    it was, and the requests that follow are served as if the failing one
    had not been made.  Whether the answer is a client error is decided
    by the exception the framework raised. *)
Theorem malformed_body_leaves_history :
  (forall e now h, analyze (Raises e) now h = (inl e, h))
  /\ (forall rq now h e h',
        analyze rq now h = (inl e, h') ->
        h' = h
        /\ forall rqs,
             serve ((rq, now) :: rqs) h
             = (inl e :: (serve rqs h).1, (serve rqs h).2)).
Proof.
  split; [reflexivity|].
  intros rq now h e h' Hrun.
  pose proof (analyze_raises_unchanged rq now h e h' Hrun) as ->.
  split; [reflexivity|].
  intros rqs. rewrite serve_cons, Hrun. reflexivity.
Qed.

Lemma malformed_body_leaves_history_witness :
  let h := (analyze (request_for "p" "d") (at_second 0) HISTORY).2 in
  serve [(Raises Py.BadRequest, at_second 1); (request_for "p" "d", at_second 2)] h
  = (inl Py.BadRequest :: (serve [(request_for "p" "d", at_second 2)] h).1,
     (serve [(request_for "p" "d", at_second 2)] h).2).
Proof.
  intros h.
  apply (proj2 malformed_body_leaves_history
           (Raises Py.BadRequest) (at_second 1) h Py.BadRequest h).
  reflexivity.
Defined.

(** C6 as stated fails: a body need not be answered with a client error
    because it does not parse.  Text that opens brackets without end,
    nested deeper than the decoder can follow, makes [request.json] raise
    [RecursionError]; the handler has no handler for it and the answer is
    500, a server error. *)
Lemma malformed_body_not_always_client_error :
  analyze (Raises Py.RecursionError) (at_second 0) HISTORY
  = (inl Py.RecursionError, HISTORY)
  /\ Py.http_status Py.RecursionError = 500
  /\ ~ Py.client_error (Py.http_status Py.RecursionError).
Proof.
  split; [reflexivity|]. split; [reflexivity|].
  unfold Py.client_error. simpl. lia.
Qed.

(** C7.  Two bodies that agree on every field other than [doctorAddress]
    (which may differ, or be there in one and not in the other) get the
    same answer and leave the same [HISTORY]. *)
Theorem doctorAddress_is_dead_input
    (d1 d2 : list (string * Py.value)) (now : Z) (h : History) :
  (forall f, f <> "doctorAddress" -> dict_lookup f d1 = dict_lookup f d2) ->
  analyze (Json (Py.Dict d1)) now h = analyze (Json (Py.Dict d2)) now h.
Proof.
  intros Hagree.
  assert (Hkey : patient_key (Json (Py.Dict d1)) = patient_key (Json (Py.Dict d2))).
  { simpl. rewrite (Hagree "patientHash") by discriminate. reflexivity. }
  destruct (patient_key (Json (Py.Dict d2))) as [k|] eqn:Hk.
  - rewrite (analyze_ok _ now h k Hkey), (analyze_ok _ now h k Hk). reflexivity.
  - rewrite (analyze_unhashable d1 now h Hkey), (analyze_unhashable d2 now h Hk).
    reflexivity.
Qed.

Lemma doctorAddress_is_dead_input_witness :
  analyze (Json (Py.Dict [("patientHash", Py.Str "p"); ("doctorAddress", Py.Str "0xD1")]))
          (at_second 7) HISTORY
  = analyze (Json (Py.Dict [("patientHash", Py.Str "p")])) (at_second 7) HISTORY.
Proof.
  apply doctorAddress_is_dead_input.
  intros f Hf. simpl.
  destruct (String.eqb f "patientHash"); [reflexivity|].
  destruct (String.eqb_spec f "doctorAddress"); [contradiction|reflexivity].
Defined.

(** C8.  The list of a key is kept in the order of insertion, with its
    duplicates.  One call puts the new time last behind what the cleanup
    keeps of the old list, in the old order, and keeps every copy of each
    time that passes the test.  Over any run from the fresh store the list
    of a key is drawn, in order, from the times of the requests filed
    under it.  Calls at one and the same instant are stored one by one and
    counted one by one. *)
Theorem insertion_order_and_duplicates_kept :
  (forall rq now h k,
      patient_key rq = Some k ->
      let old := bucket h k in
      let new := bucket (analyze rq now h).2 k in
      new = cleanup_old_events now old ++ [now]
      /\ new `sublist_of` old ++ [now]
      /\ (forall t, recent now t ->
            count_occ Z.eq_dec new t = count_occ Z.eq_dec (old ++ [now]) t))
  /\ (forall rqs k,
        bucket (serve rqs HISTORY).2 k `sublist_of` events_for k rqs)
  /\ (forall rq now k n,
        patient_key rq = Some k ->
        let out := serve (replicate n (rq, now)) HISTORY in
        bucket out.2 k = replicate n now
        /\ out.1 = (fun i => inr (rule_based_analysis i)) <$> seq 1 n).
Proof.
  split; [|split].
  - intros rq now h k Hk old new.
    assert (Hnew : new = cleanup_old_events now (old ++ [now])).
    { subst new. unfold bucket at 1.
      rewrite (analyze_bucket rq now h k Hk). reflexivity. }
    rewrite Hnew. clear Hnew new.
    split; [apply cleanup_last|]. split; [apply cleanup_sublist|].
    intros t Ht. rewrite count_occ_cleanup.
    destruct (decide (recent now t)); [reflexivity|contradiction].
  - intros rqs k. apply (serve_bucket_sublist rqs HISTORY k).
  - intros rq now k n Hk out. subst out.
    assert (Htimes : (replicate n (rq, now)).*2 = replicate n now)
      by apply fmap_replicate.
    destruct (serve_burst k (replicate n (rq, now)) HISTORY)
      as (Houts & Hfin & _ & _).
    + apply Forall_replicate. exact Hk.
    + simpl. rewrite Htimes. clear. induction n as [|n IH]; simpl.
      * constructor.
      * constructor; [exact IH|]. apply Forall_replicate. lia.
    + simpl. rewrite Htimes. intros t t' Ht%elem_of_replicate Ht'%elem_of_replicate.
      destruct Ht as [-> _], Ht' as [-> _]. rewrite Z.sub_diag. reflexivity.
    + simpl in Houts, Hfin. rewrite Houts, Hfin, Htimes, length_replicate.
      split; reflexivity.
Qed.

Lemma insertion_order_and_duplicates_kept_witness :
  let rq := request_for "p" "d" in
  let h := (serve [(rq, at_second 0); (rq, at_second 0); (rq, at_second 4000)] HISTORY).2 in
  bucket h (Py.KStr "p") = [at_second 4000]
  /\ bucket (analyze rq (at_second 4000) h).2 (Py.KStr "p")
     = cleanup_old_events (at_second 4000) (bucket h (Py.KStr "p")) ++ [at_second 4000]
  /\ bucket (serve (replicate 3%nat (rq, at_second 9)) HISTORY).2 (Py.KStr "p")
     = [at_second 9; at_second 9; at_second 9].
Proof.
  intros rq h. split; [vm_compute; reflexivity|]. split.
  - apply (proj1 insertion_order_and_duplicates_kept rq (at_second 4000) h (Py.KStr "p")).
    reflexivity.
  - apply (proj2 (proj2 insertion_order_and_duplicates_kept) rq (at_second 9)
             (Py.KStr "p") 3%nat).
    reflexivity.
Defined.

(** C9, as the code has it.  The handler takes no lock, so what it
    guarantees it guarantees to calls that do not interleave.  When two
    calls run one after the other, each with all its statements in a row,
    in either order, the outcome is that of the process handling the two
    requests in that order: each call sees and commits its append and its
    cleanup as one step, and nothing is lost.  Two such calls for one
    identifier at one instant both count: the answers are 1 and 2 and
    both events are stored. *)
Theorem calls_one_after_another
    (rqA rqB : request_json) (nowA nowB : Z) (kA kB : Py.key) (h : History)
    (n m : nat) :
  patient_key rqA = Some kA ->
  patient_key rqB = Some kB ->
  (6 <= n)%nat ->
  (6 <= m)%nat ->
  let a := enters kA nowA in
  let b := enters kB nowB in
  let ab := interleave (replicate n CallA ++ replicate m CallB) a b h in
  let ba := interleave (replicate m CallB ++ replicate n CallA) a b h in
  (exists rA rB,
      call_at ab.1.1 = Returned rA /\ call_at ab.1.2 = Returned rB
      /\ serve [(rqA, nowA); (rqB, nowB)] h = ([inr rA; inr rB], ab.2))
  /\ (exists rA rB,
      call_at ba.1.1 = Returned rA /\ call_at ba.1.2 = Returned rB
      /\ serve [(rqB, nowB); (rqA, nowA)] h = ([inr rB; inr rA], ba.2))
  /\ (kA = kB -> nowA = nowB -> bucket h kA = [] ->
      observed kA ab
      = (Returned (rule_based_analysis 1), Returned (rule_based_analysis 2),
         [nowA; nowA])).
Proof.
  intros HkA HkB Hn Hm a b ab ba.
  assert (Hab : ab = (Build_call kA nowA (Returned (rule_based_analysis (length
                        (cleanup_old_events nowA (bucket h kA ++ [nowA]))))),
                      Build_call kB nowB (Returned (rule_based_analysis (length
                        (cleanup_old_events nowB
                           (bucket (analyze rqA nowA h).2 kB ++ [nowB]))))),
                      (analyze rqB nowB (analyze rqA nowA h).2).2)).
  { unfold ab, a, b. rewrite interleave_app, (run_A_alone n kA nowA _ h Hn).
    simpl fst; simpl snd. rewrite (run_B_alone m kB nowB _ _ Hm).
    rewrite (analyze_ok rqB nowB _ kB HkB), (analyze_ok rqA nowA h kA HkA).
    reflexivity. }
  assert (Hba : ba = (Build_call kA nowA (Returned (rule_based_analysis (length
                        (cleanup_old_events nowA
                           (bucket (analyze rqB nowB h).2 kA ++ [nowA]))))),
                      Build_call kB nowB (Returned (rule_based_analysis (length
                        (cleanup_old_events nowB (bucket h kB ++ [nowB]))))),
                      (analyze rqA nowA (analyze rqB nowB h).2).2)).
  { unfold ba, a, b. rewrite interleave_app, (run_B_alone m kB nowB _ h Hm).
    simpl fst; simpl snd. rewrite (run_A_alone n kA nowA _ _ Hn).
    rewrite (analyze_ok rqA nowA _ kA HkA), (analyze_ok rqB nowB h kB HkB).
    reflexivity. }
  split; [|split].
  - rewrite Hab. eexists _, _. split; [reflexivity|]. split; [reflexivity|].
    rewrite !serve_cons. cbn [fst snd].
    rewrite (analyze_ok rqB nowB _ kB HkB), (analyze_ok rqA nowA h kA HkA).
    reflexivity.
  - rewrite Hba. eexists _, _. split; [reflexivity|]. split; [reflexivity|].
    rewrite !serve_cons. cbn [fst snd].
    rewrite (analyze_ok rqA nowA _ kA HkA), (analyze_ok rqB nowB h kB HkB).
    reflexivity.
  - intros <- <- Hempty. rewrite Hab. unfold observed. simpl.
    assert (H1 : cleanup_old_events nowA (bucket h kA ++ [nowA]) = [nowA]).
    { rewrite Hempty. apply (cleanup_last nowA []). }
    assert (Hb1 : bucket (analyze rqA nowA h).2 kA = [nowA]).
    { unfold bucket. rewrite (analyze_bucket rqA nowA h kA HkA), H1. reflexivity. }
    assert (H2 : cleanup_old_events nowA ([nowA] ++ [nowA]) = [nowA; nowA]).
    { apply cleanup_keeps_all.
      repeat constructor; unfold window, us_per_second; lia. }
    rewrite H1, Hb1, H2. simpl. f_equal.
    unfold bucket. rewrite (analyze_bucket rqB nowA _ kA HkB), Hb1, H2. reflexivity.
Qed.

Lemma calls_one_after_another_witness :
  observed (Py.KStr "p")
    (interleave (replicate 6%nat CallA ++ replicate 6%nat CallB)
       (enters (Py.KStr "p") (at_second 0)) (enters (Py.KStr "p") (at_second 0))
       HISTORY)
  = (Returned (rule_based_analysis 1), Returned (rule_based_analysis 2),
     [at_second 0; at_second 0]).
Proof.
  refine (proj2 (proj2 (calls_one_after_another
            (request_for "p" "a") (request_for "p" "b") (at_second 0) (at_second 0)
            (Py.KStr "p") (Py.KStr "p") HISTORY 6 6 _ _ _ _)) _ _ _);
    try reflexivity; lia.
Defined.

(** C9 as stated fails.  Two calls for the identifier "p" read the same
    instant from the clock.  In the first schedule the first call has
    evaluated the comprehension of line 29 when the second appends, and
    then stores its stale result: the second event is lost, one event is
    stored and both calls answer 1.  In the second schedule every line
    runs whole, the second call appends before the first prunes, and both
    calls answer 2.  Neither is what the two calls do in any order one
    after the other. *)
Lemma interleaved_calls_lose_an_update :
  let k := Py.KStr "p" in
  let T := at_second 0 in
  let a := enters k T in
  let b := enters k T in
  let stale_store :=
    [CallA; CallA; CallA; CallA; CallB; CallB; CallA; CallA; CallB; CallB; CallB] in
  let whole_lines :=
    [CallA; CallA; CallA; CallB; CallB; CallA; CallA; CallA; CallB; CallB; CallB] in
  observed k (interleave stale_store a b HISTORY)
    = (Returned (rule_based_analysis 1), Returned (rule_based_analysis 1), [T])
  /\ observed k (interleave whole_lines a b HISTORY)
    = (Returned (rule_based_analysis 2), Returned (rule_based_analysis 2), [T; T])
  /\ ~ linearizable k a b HISTORY stale_store
  /\ ~ linearizable k a b HISTORY whole_lines.
Proof.
  simpl. split; [vm_compute; reflexivity|]. split; [vm_compute; reflexivity|].
  split; intros [H|H]; vm_compute in H; discriminate H.
Qed.

(** C10.  The doctors' dictionary is empty at the start, the handler
    neither writes it nor looks at it, and so it is empty after any run
    of requests. *)
Theorem doctors_history_inert (rqs : list (request_json * Z)) :
  doctors HISTORY = ∅
  /\ doctors (serve rqs HISTORY).2 = ∅
  /\ (forall rq now h, doctors (analyze rq now h).2 = doctors h)
  /\ (forall rq now p d1 d2,
        (analyze rq now {| patients := p; doctors := d1 |}).1
          = (analyze rq now {| patients := p; doctors := d2 |}).1
        /\ patients (analyze rq now {| patients := p; doctors := d1 |}).2
          = patients (analyze rq now {| patients := p; doctors := d2 |}).2).
Proof.
  split; [reflexivity|]. split; [apply (serve_doctors rqs HISTORY)|].
  split; [apply analyze_doctors|apply analyze_ignores_doctors].
Qed.

(** * Further properties of the handler *)

Section More.

Implicit Types (h : History) (k : Py.key) (now t d : Z) (l : list Z)
  (rq : request_json) (rqs : list (request_json * Z)).

(** A request that raises raises the same exception at any time and in
    any state. *)
Lemma analyze_fails_same rq now h now' h' :
  patient_key rq = None ->
  (analyze rq now h).1 = (analyze rq now' h').1
  /\ (analyze rq now h).2 = h.
Proof.
  intros Hk. destruct rq as [e|[| | | | |dict]]; try (split; reflexivity).
  rewrite !analyze_unhashable by exact Hk. split; reflexivity.
Qed.

Lemma cleanup_all_recent now l : Forall (recent now) (cleanup_old_events now l).
Proof.
  apply Forall_forall. intros t Ht.
  apply list_elem_of_filter in Ht as [Ht _]. exact Ht.
Qed.

Lemma cleanup_of_recent now l :
  Forall (recent now) l -> cleanup_old_events now l = l.
Proof.
  unfold cleanup_old_events. induction 1 as [|t l Ht _ IH]; [reflexivity|].
  rewrite filter_cons_True, IH by exact Ht. reflexivity.
Qed.

Lemma cleanup_of_old now l :
  Forall (fun t => ~ recent now t) l -> cleanup_old_events now l = [].
Proof.
  unfold cleanup_old_events. induction 1 as [|t l Ht _ IH]; [reflexivity|].
  rewrite filter_cons_False, IH by exact Ht. reflexivity.
Qed.

Lemma recent_shift now t d : recent (now + d) (t + d) <-> recent now t.
Proof.
  rewrite !recent_mod_day.
  replace (now + d - (t + d)) with (now - t) by lia. reflexivity.
Qed.

Lemma cleanup_shift now d l :
  cleanup_old_events (now + d) ((fun t => t + d) <$> l)
  = (fun t => t + d) <$> cleanup_old_events now l.
Proof.
  unfold cleanup_old_events. induction l as [|t l IH]; [reflexivity|].
  rewrite fmap_cons, !filter_cons, IH.
  pose proof (recent_shift now t d) as Hiff.
  destruct (decide (recent now t)) as [Ht|Ht];
    destruct (decide (recent (now + d) (t + d))) as [Ht'|Ht'];
    try reflexivity; tauto.
Qed.

Lemma cleanup_days now n l :
  cleanup_old_events (now + n * us_per_day) l = cleanup_old_events now l.
Proof.
  unfold cleanup_old_events. apply list_filter_iff.
  intros t. apply recent_add_days.
Qed.

Lemma events_for_snoc k rqs rq now :
  events_for k (rqs ++ [(rq, now)])
  = events_for k rqs ++ (if decide (patient_key rq = Some k) then [now] else []).
Proof.
  unfold events_for. rewrite filter_app, fmap_app. f_equal.
  rewrite filter_cons, filter_nil. simpl.
  destruct (decide (patient_key rq = Some k)); reflexivity.
Qed.

Lemma serve_snoc rqs rq now h :
  (serve (rqs ++ [(rq, now)]) h).2 = (analyze rq now (serve rqs h).2).2
  /\ (serve (rqs ++ [(rq, now)]) h).1
     = (serve rqs h).1 ++ [(analyze rq now (serve rqs h).2).1].
Proof. rewrite serve_app, serve_cons. split; reflexivity. Qed.

End More.

(** X1.  An answered request counts at least its own event and at most
    one more than was on record for its key, and its own time is the last
    entry of the stored list. *)
Theorem analyze_count_bounds
    (rq : request_json) (now : Z) (h h' : History) (r : response) :
  analyze rq now h = (inr r, h') ->
  exists k, patient_key rq = Some k
    /\ (1 <= count_last_hour r <= S (length (bucket h k)))%nat
    /\ last (bucket h' k) = Some now.
Proof.
  intros Hrun. destruct (patient_key rq) as [k|] eqn:Hk.
  - exists k. split; [reflexivity|].
    assert (Hb : bucket h' k = cleanup_old_events now (bucket h k) ++ [now]).
    { unfold bucket at 1. replace h' with (analyze rq now h).2 by (rewrite Hrun; reflexivity).
      rewrite (analyze_bucket rq now h k Hk). simpl. apply cleanup_last. }
    rewrite (analyze_ok rq now h k Hk) in Hrun. injection Hrun as <- _.
    rewrite count_last_hour_rule, Hb, cleanup_last.
    split; [|apply last_snoc].
    rewrite length_app. simpl.
    pose proof (length_filter (recent now) (bucket h k)) as Hle.
    unfold cleanup_old_events. lia.
  - destruct (analyze_raises rq now h Hk) as [e He]. congruence.
Qed.

Lemma analyze_count_bounds_witness :
  exists k, patient_key (request_for "p" "d") = Some k
    /\ (1 <= count_last_hour (rule_based_analysis 1) <= S (length (bucket HISTORY k)))%nat
    /\ last (bucket (analyze (request_for "p" "d") (at_second 3) HISTORY).2 k)
       = Some (at_second 3).
Proof.
  apply (analyze_count_bounds (request_for "p" "d") (at_second 3) HISTORY).
  vm_compute. reflexivity.
Defined.

(** X2.  What the handler does with the value of [request.json].  It
    never raises [KeyError]: the subscripts of lines 26, 29 and 33 always
    find the key that lines 24 and 25 put there.  It raises
    [AttributeError] exactly when the value is not a dictionary,
    [TypeError] exactly when it is a dictionary whose [patientHash] is
    unhashable, and it answers exactly when it is a dictionary whose
    [patientHash] is hashable. *)
Theorem analyze_outcome_cases (v : Py.value) (now : Z) (h : History) :
  (analyze (Json v) now h).1 <> inl Py.KeyError
  /\ ((analyze (Json v) now h).1 = inl Py.AttributeError
      <-> forall d, v <> Py.Dict d)
  /\ ((analyze (Json v) now h).1 = inl Py.TypeError
      <-> exists d, v = Py.Dict d
                    /\ Py.hash (default Py.None_ (dict_lookup "patientHash" d)) = None)
  /\ ((exists r, (analyze (Json v) now h).1 = inr r)
      <-> exists d k, v = Py.Dict d
                      /\ Py.hash (default Py.None_ (dict_lookup "patientHash" d)) = Some k).
Proof.
  assert (Hnd : forall w, (forall d, w <> Py.Dict d) ->
                  (analyze (Json w) now h).1 = inl Py.AttributeError).
  { intros [| | | | |d] Hw; try reflexivity. destruct (Hw d). reflexivity. }
  destruct v as [|b|z|s|l|d].
  1-5: (split; [rewrite Hnd by discriminate; discriminate|];
        split; [split; [discriminate|intros _; apply Hnd; discriminate]|];
        split; (split;
          [rewrite Hnd by discriminate; try discriminate;
           intros [r Hr]; discriminate
          |intros (d & Hd); try destruct Hd as (k & Hd & _);
           try destruct Hd as (Hd & _); discriminate])).
  destruct (patient_key (Json (Py.Dict d))) as [k|] eqn:Hk.
  - rewrite (analyze_ok _ now h k Hk). simpl. simpl in Hk.
    split; [discriminate|]. split.
    { split; [discriminate|]. intros Hd. destruct (Hd d). reflexivity. }
    split.
    { split; [discriminate|]. intros (d' & [= <-] & Hnone). congruence. }
    split; [intros _; exists d, k; split; [reflexivity|exact Hk]|eauto].
  - rewrite (analyze_unhashable d now h Hk). simpl. simpl in Hk.
    split; [discriminate|]. split.
    { split; [discriminate|]. intros Hd. destruct (Hd d). reflexivity. }
    split.
    { split; [intros _; exists d; split; [reflexivity|exact Hk]|reflexivity]. }
    split; [intros [r Hr]; discriminate|].
    intros (d' & k & [= <-] & Hsome). congruence.
Qed.

(** X3.  No key is ever removed from [HISTORY['patients']]: after a run
    the keys are those that were there before together with the keys of
    the requests that were answered. *)
Theorem history_keys_only_grow
    (rqs : list (request_json * Z)) (h : History) (k : Py.key) :
  k ∈ dom (patients (serve rqs h).2)
  <-> k ∈ dom (patients h) \/ exists x, x ∈ rqs /\ patient_key x.1 = Some k.
Proof.
  revert h. induction rqs as [|[rq now] rqs IH]; intros h.
  - simpl. split; [auto|]. intros [Hk|(x & Hx & _)]; [exact Hk|].
    apply elem_of_nil in Hx. contradiction.
  - rewrite serve_cons. simpl. rewrite IH.
    assert (Hstep : k ∈ dom (patients (analyze rq now h).2)
                    <-> k ∈ dom (patients h) \/ patient_key rq = Some k).
    { destruct (patient_key rq) as [k'|] eqn:Hk'.
      - rewrite (analyze_ok rq now h k' Hk'). simpl.
        rewrite dom_insert_L, elem_of_union, elem_of_singleton.
        split; (intros [H|H]; [right|left]); congruence || exact H.
      - destruct (analyze_raises rq now h Hk') as [e He]. rewrite He. simpl.
        split; [auto|]. intros [H|H]; [exact H|discriminate]. }
    rewrite Hstep. split.
    + intros [[H|H]|(x & Hx & Hkx)]; [left; exact H| |].
      * right. exists (rq, now). split; [left|exact H].
      * right. exists x. split; [right; exact Hx|exact Hkx].
    + intros [H|(x & Hx & Hkx)]; [left; left; exact H|].
      apply elem_of_cons in Hx as [->|Hx].
      * left. right. exact Hkx.
      * right. exists x. split; assumption.
Qed.

(** X4.  In every state reached from the fresh store, the list of a key
    is not empty: its last entry is the time of the latest request filed
    under that key, and every entry passed the test of the cleanup
    against that time. *)
Theorem stored_list_ends_with_latest_call
    (rqs : list (request_json * Z)) (k : Py.key) (l : list Z) :
  patients (serve rqs HISTORY).2 !! k = Some l ->
  exists now, last (events_for k rqs) = Some now
              /\ last l = Some now
              /\ Forall (recent now) l.
Proof.
  revert l. induction rqs as [|[rq now] rqs IH] using rev_ind; intros l Hl.
  - simpl in Hl. rewrite lookup_empty in Hl. discriminate.
  - destruct (serve_snoc rqs rq now HISTORY) as [Hst _]. rewrite Hst in Hl.
    rewrite events_for_snoc.
    destruct (decide (patient_key rq = Some k)) as [Hk|Hk].
    + rewrite (analyze_bucket rq now _ k Hk) in Hl. injection Hl as <-.
      exists now. split; [apply last_snoc|].
      split; [rewrite cleanup_last; apply last_snoc|apply cleanup_all_recent].
    + rewrite (analyze_other_keys rq now _ k Hk) in Hl.
      rewrite app_nil_r. apply IH, Hl.
Qed.

Lemma stored_list_ends_with_latest_call_witness :
  exists now,
    last (events_for (Py.KStr "p")
            [(request_for "p" "d", at_second 0); (request_for "q" "d", at_second 1);
             (request_for "p" "d", at_second 2)]) = Some now
    /\ last [at_second 0; at_second 2] = Some now
    /\ Forall (recent now) [at_second 0; at_second 2].
Proof.
  apply (stored_list_ends_with_latest_call
           [(request_for "p" "d", at_second 0); (request_for "q" "d", at_second 1);
            (request_for "p" "d", at_second 2)] (Py.KStr "p")).
  vm_compute. reflexivity.
Defined.

(** X5.  Two calls for one key from the fresh store, at any two clock
    readings: the second counts the first exactly when the difference of
    the readings, taken modulo one day, is below one hour.  So the first
    event is counted again a day later, and it is not counted when the
    clock has stepped back by no more than 23 hours. *)
Theorem second_call_count (rq1 rq2 : request_json) (k : Py.key) (T T' : Z) :
  patient_key rq1 = Some k ->
  patient_key rq2 = Some k ->
  (serve [(rq1, T); (rq2, T')] HISTORY).1
  = [inr (rule_based_analysis 1);
     inr (rule_based_analysis
            (if decide ((T' - T) mod us_per_day < window) then 2 else 1))].
Proof.
  intros Hk1 Hk2. rewrite !serve_cons. simpl.
  assert (Hb : bucket (analyze rq1 T HISTORY).2 k = [T]).
  { unfold bucket at 1. rewrite (analyze_bucket rq1 T HISTORY k Hk1). simpl.
    apply (cleanup_last T []). }
  rewrite (analyze_ok rq2 T' _ k Hk2), Hb. simpl.
  rewrite (analyze_ok rq1 T HISTORY k Hk1). simpl.
  change (bucket HISTORY k ++ [T]) with ([] ++ [T]).
  rewrite (cleanup_last T []). simpl.
  change [T; T'] with ([T] ++ [T']). rewrite cleanup_last.
  unfold cleanup_old_events. rewrite filter_cons, filter_nil.
  pose proof (recent_mod_day T' T) as Hiff.
  destruct (decide (recent T' T)) as [Hr|Hr];
    destruct (decide ((T' - T) mod us_per_day < window)) as [Hm|Hm];
    try reflexivity; tauto.
Qed.

Lemma second_call_count_witness :
  (serve [(request_for "p" "a", at_second 100); (request_for "p" "b", at_second 40)]
         HISTORY).1
  = [inr (rule_based_analysis 1); inr (rule_based_analysis 1)].
Proof.
  apply (second_call_count (request_for "p" "a") (request_for "p" "b")
           (Py.KStr "p") (at_second 100) (at_second 40)).
  - reflexivity.
  - reflexivity.
Defined.

(** X6.  The handler looks at differences of clock readings only: moving
    every request of a run by the same amount of time changes no answer,
    and moves every stored time by that amount. *)
Theorem answers_invariant_under_time_shift
    (d : Z) (rqs : list (request_json * Z)) :
  let shifted := (fun x : request_json * Z => (x.1, x.2 + d)) <$> rqs in
  (serve shifted HISTORY).1 = (serve rqs HISTORY).1
  /\ patients (serve shifted HISTORY).2
     = (fun l : list Z => (fun t => t + d) <$> l) <$> patients (serve rqs HISTORY).2.
Proof.
  intros shifted. subst shifted.
  assert (Hgen : forall h1 h2,
    patients h2 = (fun l : list Z => (fun t => t + d) <$> l) <$> patients h1 ->
    (serve ((fun x : request_json * Z => (x.1, x.2 + d)) <$> rqs) h2).1
      = (serve rqs h1).1
    /\ patients (serve ((fun x : request_json * Z => (x.1, x.2 + d)) <$> rqs) h2).2
       = (fun l : list Z => (fun t => t + d) <$> l) <$> patients (serve rqs h1).2).
  { induction rqs as [|[rq now] rqs IH]; intros h1 h2 Hrel; [split; [reflexivity|exact Hrel]|].
    rewrite fmap_cons, !serve_cons. simpl.
    assert (Hstep : (analyze rq (now + d) h2).1 = (analyze rq now h1).1
                    /\ patients (analyze rq (now + d) h2).2
                       = (fun l : list Z => (fun t => t + d) <$> l)
                           <$> patients (analyze rq now h1).2).
    { destruct (patient_key rq) as [k|] eqn:Hk.
      - rewrite (analyze_ok rq (now + d) h2 k Hk), (analyze_ok rq now h1 k Hk). simpl.
        assert (Hb : bucket h2 k ++ [now + d]
                     = (fun t => t + d) <$> (bucket h1 k ++ [now])).
        { rewrite fmap_app. simpl. f_equal. unfold bucket.
          rewrite Hrel, lookup_fmap. destruct (patients h1 !! k); reflexivity. }
        rewrite Hb, cleanup_shift, length_fmap, fmap_insert, Hrel.
        split; reflexivity.
      - destruct (analyze_fails_same rq (now + d) h2 now h1 Hk) as [Ho Hs2].
        destruct (analyze_fails_same rq now h1 now h1 Hk) as [_ Hs1].
        rewrite Ho, Hs2, Hs1. split; [reflexivity|exact Hrel]. }
    destruct Hstep as [Ho Hp].
    destruct (IH _ _ Hp) as [Hos Hps]. rewrite Ho, Hos, Hps.
    split; reflexivity. }
  apply Hgen. simpl. rewrite fmap_empty. reflexivity.
Qed.

(** X7.  Of the body only [patientHash] is read: two dictionaries whose
    [data.get('patientHash')] is the same value get the same answer and
    leave the same state.  A [patientHash] that is [null] is treated as a
    [patientHash] that is missing. *)
Theorem only_patientHash_is_read
    (d1 d2 : list (string * Py.value)) (now : Z) (h : History) :
  default Py.None_ (dict_lookup "patientHash" d1)
    = default Py.None_ (dict_lookup "patientHash" d2) ->
  analyze (Json (Py.Dict d1)) now h = analyze (Json (Py.Dict d2)) now h.
Proof.
  intros Hsame.
  assert (Hkey : patient_key (Json (Py.Dict d1)) = patient_key (Json (Py.Dict d2))).
  { simpl. rewrite Hsame. reflexivity. }
  destruct (patient_key (Json (Py.Dict d2))) as [k|] eqn:Hk.
  - rewrite (analyze_ok _ now h k Hkey), (analyze_ok _ now h k Hk). reflexivity.
  - rewrite (analyze_unhashable d1 now h Hkey), (analyze_unhashable d2 now h Hk).
    reflexivity.
Qed.

Lemma only_patientHash_is_read_witness :
  analyze (Json (Py.Dict [("patientHash", Py.None_); ("note", Py.Int 7)]))
          (at_second 1) HISTORY
  = analyze (Json (Py.Dict [])) (at_second 1) HISTORY.
Proof.
  apply only_patientHash_is_read. reflexivity.
Defined.

(** X8.  The risk score never goes down when the count goes up, and it
    lies between 0 and 0.8. *)
Theorem risk_score_monotone (c1 c2 : nat) :
  (c1 <= c2)%nat ->
  (Py.number_value (risk_score (rule_based_analysis c1))
   <= Py.number_value (risk_score (rule_based_analysis c2)))%Q
  /\ (0 <= Py.number_value (risk_score (rule_based_analysis c1)))%Q
  /\ (Py.number_value (risk_score (rule_based_analysis c2)) <= 8 # 10)%Q.
Proof.
  intros Hle. unfold rule_based_analysis.
  destruct (Nat.ltb_spec 3 c1), (Nat.ltb_spec 1 c1),
           (Nat.ltb_spec 3 c2), (Nat.ltb_spec 1 c2);
    try lia; simpl; repeat split; unfold Qle; simpl; lia.
Qed.

Lemma risk_score_monotone_witness :
  (Py.number_value (risk_score (rule_based_analysis 1))
   <= Py.number_value (risk_score (rule_based_analysis 5)))%Q.
Proof.
  apply (risk_score_monotone 1 5). lia.
Defined.

(** X9.  In a run from the fresh store the count in an answer never
    exceeds the number of requests filed under that key so far, the one
    answered included. *)
Theorem count_at_most_requests_so_far
    (rqs : list (request_json * Z)) (rq : request_json) (now : Z)
    (k : Py.key) (r : response) :
  patient_key rq = Some k ->
  (analyze rq now (serve rqs HISTORY).2).1 = inr r ->
  (count_last_hour r <= S (length (events_for k rqs)))%nat.
Proof.
  intros Hk Hr. rewrite (analyze_ok rq now _ k Hk) in Hr. simpl in Hr.
  injection Hr as <-. rewrite count_last_hour_rule, cleanup_last, length_app.
  simpl.
  pose proof (length_filter (recent now) (bucket (serve rqs HISTORY).2 k)) as Hf.
  pose proof (sublist_length _ _ (serve_bucket_sublist rqs HISTORY k)) as Hs.
  change (bucket HISTORY k) with (@nil Z) in Hs. simpl in Hs.
  unfold cleanup_old_events. lia.
Qed.

Lemma count_at_most_requests_so_far_witness :
  (count_last_hour (rule_based_analysis 1)
   <= S (length (events_for (Py.KStr "p")
                   [(request_for "p" "d", at_second 0);
                    (request_for "p" "d", at_second 10)])))%nat.
Proof.
  apply (count_at_most_requests_so_far
           [(request_for "p" "d", at_second 0); (request_for "p" "d", at_second 10)]
           (request_for "p" "d") (at_second 5000) (Py.KStr "p")).
  - reflexivity.
  - vm_compute. reflexivity.
Defined.

(** X10.  After a quiet period the count starts again: when every event
    on record for the key is at least one hour and less than one day old,
    the answer is that of a first call and the stored list is the new
    event alone. *)
Theorem quiet_period_resets_count
    (rq : request_json) (now : Z) (h : History) (k : Py.key) :
  patient_key rq = Some k ->
  Forall (fun t => window <= now - t < us_per_day) (bucket h k) ->
  analyze rq now h
  = (inr (rule_based_analysis 1),
     {| patients := <[k := [now]]> (patients h); doctors := doctors h |}).
Proof.
  intros Hk Hold. rewrite (analyze_ok rq now h k Hk). simpl.
  rewrite cleanup_last, cleanup_of_old; [reflexivity|].
  eapply Forall_impl; [exact Hold|]. intros t Ht Hrec.
  apply recent_within_day in Hrec;
    unfold window, us_per_day, us_per_second in *; lia.
Qed.

Lemma quiet_period_resets_count_witness :
  let h := (analyze (request_for "p2" "d") (at_second 0) HISTORY).2 in
  analyze (request_for "p2" "d") (at_second 3601) h
  = (inr (rule_based_analysis 1),
     {| patients := <[Py.KStr "p2" := [at_second 3601]]> (patients h);
        doctors := doctors h |}).
Proof.
  intros h.
  apply (quiet_period_resets_count (request_for "p2" "d") (at_second 3601) h
           (Py.KStr "p2")).
  - reflexivity.
  - repeat constructor; vm_compute; discriminate.
Defined.

(** X11.  A request repeated at the same clock reading counts exactly one
    more than the first time, whatever the state: the second cleanup
    drops nothing. *)
Theorem repeated_call_same_instant
    (rq : request_json) (now : Z) (h : History) (k : Py.key) :
  patient_key rq = Some k ->
  let h1 := (analyze rq now h).2 in
  (analyze rq now h1).1 = inr (rule_based_analysis (S (length (bucket h1 k))))
  /\ bucket (analyze rq now h1).2 k = bucket h1 k ++ [now].
Proof.
  intros Hk h1.
  assert (Hrec : Forall (recent now) (bucket h1 k)).
  { unfold bucket, h1. rewrite (analyze_bucket rq now h k Hk). simpl.
    apply cleanup_all_recent. }
  assert (Hkeep : cleanup_old_events now (bucket h1 k ++ [now]) = bucket h1 k ++ [now]).
  { rewrite cleanup_last, cleanup_of_recent by exact Hrec. reflexivity. }
  split.
  - rewrite (analyze_ok rq now h1 k Hk). simpl.
    rewrite Hkeep, length_app. simpl. rewrite Nat.add_1_r. reflexivity.
  - unfold bucket at 1. rewrite (analyze_bucket rq now h1 k Hk), Hkeep. reflexivity.
Qed.

Lemma repeated_call_same_instant_witness :
  let rq := request_for "p" "d" in
  let h1 := (analyze rq (at_second 8) HISTORY).2 in
  (analyze rq (at_second 8) h1).1
  = inr (rule_based_analysis (S (length (bucket h1 (Py.KStr "p")))))
  /\ bucket (analyze rq (at_second 8) h1).2 (Py.KStr "p")
     = bucket h1 (Py.KStr "p") ++ [at_second 8].
Proof.
  intros rq h1.
  apply (repeated_call_same_instant rq (at_second 8) HISTORY (Py.KStr "p")).
  reflexivity.
Defined.

(** X12.  The answer depends on the clock modulo 24 hours only: the same
    request in the same state gets the same answer a whole number of days
    earlier or later, and the same events are kept. *)
Theorem answer_is_periodic_in_days
    (rq : request_json) (now n : Z) (h : History) (k : Py.key) :
  (analyze rq (now + n * us_per_day) h).1 = (analyze rq now h).1
  /\ (patient_key rq = Some k ->
      bucket (analyze rq (now + n * us_per_day) h).2 k
      = cleanup_old_events now (bucket h k) ++ [now + n * us_per_day]).
Proof.
  split.
  - destruct (patient_key rq) as [k'|] eqn:Hk.
    + rewrite !(analyze_ok rq _ h k' Hk). simpl.
      rewrite !cleanup_last, cleanup_days, !length_app. reflexivity.
    + apply (analyze_fails_same rq _ h now h Hk).
  - intros Hk. unfold bucket at 1.
    rewrite (analyze_bucket rq _ h k Hk). simpl.
    rewrite cleanup_last, cleanup_days. reflexivity.
Qed.

Lemma answer_is_periodic_in_days_witness :
  let h := (analyze (request_for "p" "d") (at_second 0) HISTORY).2 in
  bucket (analyze (request_for "p" "d") (at_second 60 + 3 * us_per_day) h).2
         (Py.KStr "p")
  = cleanup_old_events (at_second 60) (bucket h (Py.KStr "p"))
      ++ [at_second 60 + 3 * us_per_day].
Proof.
  intros h.
  apply (answer_is_periodic_in_days (request_for "p" "d") (at_second 60) 3 h
           (Py.KStr "p")).
  reflexivity.
Defined.
